(** * Raspberry weather station: the page tree of [pages.py]

    A shallow embedding of the menu pages of the weather station display
    ([src/pages.py]) and the proofs of its navigation and rendering
    properties.

    - Python objects of class [Page] become values of the tree type [Page];
      the two methods [update] and [click] become functions that take the
      object ([self]) and give back the object after the call together with
      what the call did.
    - What a call does to the outside world (the screen, the console, the
      clock, the host shell) is recorded as a list of [Event]s, in order; an
      uncaught Python exception ends the call and is its result.
    - Temperatures are exact rationals: every finite Python [int] or [float]
      is one, and [round] is exact on them. *)

From Stdlib Require Import ZArith QArith Qround Qabs Lia Lqa.
From stdpp Require Import base list strings pretty.

Local Open Scope string_scope.
Local Open Scope list_scope.
Local Open Scope Z_scope.

(** ** Python values used by the pages *)

Module Py.

(** The exceptions the page code can run into. *)
Inductive Exception : Set :=
| TypeError          (* round(None), None[:2] *)
| AttributeError     (* None.get_temperature, None.get_reference_time *)
| IndexError         (* list index out of range *)
| FileNotFoundError. (* Image.open of a missing file *)

(** [round(x)] with one argument: the nearest integer, a tie going to the
    even neighbour. *)
Definition round (x : Q) : Z :=
  let f := Qfloor x in
  match (x - inject_Z f ?= 1 # 2)%Q with
  | Lt => f
  | Gt => f + 1
  | Eq => if Z.even f then f else f + 1
  end.

(** [str(n)] for an [int]. *)
Definition str (n : Z) : string := pretty n.

(** [s[:n]]: the first [n] characters, fewer when [s] is shorter. *)
Definition prefix (n : nat) (s : string) : string := String.substring 0 n s.

(** The position [l[i]] reads for a list of length [len]: negative indices
    count from the end, anything else out of range has no position. *)
Definition index (len : nat) (i : Z) : option nat :=
  if bool_decide (0 <= i < Z.of_nat len) then Some (Z.to_nat i)
  else if bool_decide (- Z.of_nat len <= i < 0) then Some (Z.to_nat (Z.of_nat len + i))
  else None.

(** [l[i]]; [None] stands for [IndexError]. *)
Definition getitem {A : Type} (l : list A) (i : Z) : option A :=
  k ← index (length l) i; l !! k.

(** [pathlib.Path(base) / rel] for a relative [rel]. *)
Record Path : Set := PathJoin { path_base : string; path_rel : string }.

(** A [PIL.Image] is known by the file it was opened from. *)
Record Image : Set := ImageOf { image_file : Path }.

(** The fields of a [datetime] that [strftime('%H:%M')] reads. *)
Record datetime : Set := { hour : Z; minute : Z }.

(** [%H] and [%M]: two digits, zero padded. *)
Definition two_digits (n : Z) : string :=
  if bool_decide (n < 10) then "0" +:+ str n else str n.

Definition strftime_HM (d : datetime) : string :=
  two_digits (hour d) +:+ ":" +:+ two_digits (minute d).

End Py.

(** ** The host: file system and local clock *)

(** What the interpreter asks of the machine it runs on: whether an image
    file can be opened, and the local wall-clock time of a unix timestamp
    (forecast timestamps lie within the years the platform's [localtime]
    converts). *)
Record Host : Type := {
  file_exists : Py.Path → bool;
  localtime : Z → Py.datetime
}.

(** A host on UTC with every icon file in place. *)
Definition utc_host : Host := {|
  file_exists := λ _, true;
  localtime := λ ts, {| Py.hour := (ts `mod` 86400) `div` 3600;
                        Py.minute := (ts `mod` 3600) `div` 60 |}
|}.

(** A host on UTC whose icon directory is empty. *)
Definition bare_host : Host := {|
  file_exists := λ _, false;
  localtime := localtime utc_host
|}.

(** ** The weather station (external collaborator) *)

(** A forecast record: [get_temperature(unit='celsius')] gives a dictionary
    with the keys [temp_min] and [temp_max], [get_reference_time()] a unix
    timestamp. *)
Record Weather : Set := {
  temp_min : Q;
  temp_max : Q;
  reference_time : Z
}.

(** The attributes of the station the pages read. *)
Record WeatherStation : Set := {
  weather_hour : option Z;
  outside_temp : option Q;
  inside_temp : option Q;
  icon : option string;
  coldest : option Weather;
  hottest : option Weather
}.

(** ** Effects *)

(** The calls that leave the page tree, in the order they are made. *)
Inductive Event : Set :=
| screen_display (outside_temp inside_temp : option string) (img : option Py.Image)
| screen_display_top_bottom (top bottom : string)
| screen_display_bitmap (img : Py.Image)
| screen_display_text (text : string)
| print (line : string)
| time_sleep (seconds : Q)
| os_system (command : string).

(** A statement sequence: the events emitted so far and either the
    exception that ended it or its value. *)
Definition Stmt (A : Type) : Type := list Event * (Py.Exception + A).

Definition stmt_ret {A} (a : A) : Stmt A := ([], inr a).

Definition stmt_bind {A B} (f : A → Stmt B) (m : Stmt A) : Stmt B :=
  match m with
  | (tr, inl e) => (tr, inl e)
  | (tr, inr a) => let '(tr', r) := f a in (tr ++ tr', r)
  end.

#[global] Instance Stmt_ret : MRet Stmt := @stmt_ret.
#[global] Instance Stmt_bind : MBind Stmt := @stmt_bind.

Definition raise {A} (e : Py.Exception) : Stmt A := ([], inl e).
Definition emit (ev : Event) : Stmt unit := ([ev], inr tt).

(** An absent value where the code needs a present one. *)
Definition present {A} (e : Py.Exception) (o : option A) : Stmt A :=
  match o with
  | Some a => mret a
  | None => raise e
  end.

(** [round(x)] where [x] may be [None]. *)
Definition round_of (x : option Q) : Stmt Z :=
  v ← present Py.TypeError x; mret (Py.round v).

(** [Image.open(path)]. *)
Definition Image_open (h : Host) (path : Py.Path) : Stmt Py.Image :=
  if file_exists h path then mret (Py.ImageOf path) else raise Py.FileNotFoundError.

(** [datetime.fromtimestamp(ts)]: local time. *)
Definition fromtimestamp (h : Host) (ts : Z) : Py.datetime := localtime h ts.

Definition trace {A} (m : Stmt A) : list Event := m.1.
Definition result {A} (m : Stmt A) : Py.Exception + A := m.2.

(** ** Pages *)

(** The concrete classes, each with the attributes only it has
    ([base_path] is set by [CurrentWeatherPage.__init__] and
    [SettingsPage.__init__]). *)
Inductive PageClass : Set :=
| CurrentWeatherPage (base_path : string)
| MinMaxTemperaturePage
| MinMaxHoursPage
| SettingsPage (base_path : string)
| ShutdownPage
| RebootPage
| BackPage.

#[global] Instance PageClass_eq_dec : EqDecision PageClass.
Proof. solve_decision. Defined.

(** A page object: its class, [self.pages] and [self.current_page]
    ([None] = the page itself is shown). The weather station every page
    holds is the one station of the device and is passed to [update]. *)
#[warnings="-register-all"]
Inductive Page : Type := mkPage {
  page_class : PageClass;
  pages : list Page;
  current_page : option Z
}.

Definition set_current_page (cur : option Z) (self : Page) : Page :=
  mkPage (page_class self) (pages self) cur.

Definition set_subpage (k : nat) (sub : Page) (self : Page) : Page :=
  mkPage (page_class self) (<[k := sub]> (pages self)) (current_page self).

(** [self.pages.append(sub)]. *)
Definition pages_append (sub : Page) (self : Page) : Page :=
  mkPage (page_class self) (pages self ++ [sub]) (current_page self).

(** *** Constructors *)

(** [Page.__init__]: no subpages, the main page is current. *)
Definition Page_init (c : PageClass) : Page := mkPage c [] None.

Definition new_CurrentWeatherPage (base_path : string) : Page :=
  Page_init (CurrentWeatherPage base_path).

Definition new_MinMaxHoursPage : Page := Page_init MinMaxHoursPage.
Definition new_ShutdownPage : Page := Page_init ShutdownPage.
Definition new_RebootPage : Page := Page_init RebootPage.
Definition new_BackPage : Page := Page_init BackPage.

Definition new_MinMaxTemperaturePage : Page :=
  pages_append new_MinMaxHoursPage (Page_init MinMaxTemperaturePage).

Definition new_SettingsPage (base_path : string) : Page :=
  pages_append new_BackPage
    (pages_append new_RebootPage
       (pages_append new_ShutdownPage (Page_init (SettingsPage base_path)))).

(** *** Method bodies that do not touch [self] *)

Definition CurrentWeatherPage_update (h : Host) (ws : WeatherStation)
    (base_path : string) : Stmt unit :=
  '(outside, img) ←
    match weather_hour ws with
    | Some _ =>
        t ← round_of (outside_temp ws);
        code ← present Py.TypeError (icon ws);
        let icon_file :=
          Py.PathJoin base_path ("icons/" +:+ Py.prefix 2 code +:+ ".bmp") in
        img ← Image_open h icon_file;
        mret (Some (Py.str t), Some img)
    | None => mret (None, None)
    end;
  inside ←
    match inside_temp ws with
    | Some t => mret (Some (Py.str (Py.round t)))
    | None => mret None
    end;
  emit (screen_display outside inside img);;
  emit (print "Screen updated.").

(** [MinMaxTemperaturePage.update] on its main page. *)
Definition MinMaxTemperaturePage_update_main (ws : WeatherStation) : Stmt unit :=
  match coldest ws with
  | Some cold =>
      let min := "Min:" +:+ Py.str (Py.round (temp_min cold)) in
      hot ← present Py.AttributeError (hottest ws);
      let max := "Max:" +:+ Py.str (Py.round (temp_max hot)) in
      emit (screen_display_top_bottom min max)
  | None => emit (screen_display_top_bottom "Min Max" "error")
  end.

Definition MinMaxHoursPage_update (h : Host) (ws : WeatherStation) : Stmt unit :=
  match coldest ws with
  | Some cold =>
      let min_hour := reference_time cold in
      let min_hour := Py.strftime_HM (fromtimestamp h min_hour) in
      hot ← present Py.AttributeError (hottest ws);
      let max_hour := reference_time hot in
      let max_hour := Py.strftime_HM (fromtimestamp h max_hour) in
      emit (screen_display_top_bottom min_hour max_hour)
  | None => emit (screen_display_top_bottom "Hours" "error")
  end.

(** [SettingsPage.update] on its main page: the cogwheel. *)
Definition SettingsPage_update_main (h : Host) (base_path : string) : Stmt unit :=
  img ← Image_open h (Py.PathJoin base_path "icons/cog.bmp");
  emit (screen_display_bitmap img).

Definition ShutdownPage_click : Stmt unit :=
  emit (print "Shutdown clicked");;
  emit (screen_display_text ".");;
  emit (time_sleep (2 # 10));;
  emit (screen_display_text "..");;
  emit (time_sleep (2 # 10));;
  emit (screen_display_text "...");;
  emit (time_sleep (2 # 10));;
  emit (screen_display_text "....");;
  emit (time_sleep (2 # 10));;
  emit (screen_display_text "");;
  emit (os_system "sudo shutdown -h now").

Definition RebootPage_click : Stmt unit :=
  emit (print "Reboot clicked");;
  emit (screen_display_text ".");;
  emit (time_sleep (2 # 10));;
  emit (screen_display_text "..");;
  emit (time_sleep (2 # 10));;
  emit (screen_display_text "...");;
  emit (time_sleep (2 # 10));;
  emit (screen_display_text "....");;
  emit (time_sleep (2 # 10));;
  emit (screen_display_text "");;
  emit (os_system "sudo reboot").

(** *** Dispatch *)

(** What a method call leaves behind: the object after the call and the
    statement sequence it ran. *)
Definition Call : Type := Page * Stmt unit.

(** [self.pages[i].method()], where [calls] lists what [method] does on
    each subpage: the call runs on the subpage the index reads, and that
    subpage is the one it may change. *)
Definition delegate (self : Page) (calls : list Call) (i : Z) : Call :=
  match Py.index (length (pages self)) i with
  | Some k =>
      match calls !! k with
      | Some (sub, s) => (set_subpage k sub self, s)
      | None => (self, raise Py.IndexError)
      end
  | None => (self, raise Py.IndexError)
  end.

(** [update()], dispatched on the class of [self]. *)
Fixpoint update (h : Host) (ws : WeatherStation) (self : Page) {struct self} : Call :=
  match self with
  | mkPage c subpages cur =>
      match c with
      | CurrentWeatherPage base_path =>
          (self, CurrentWeatherPage_update h ws base_path)
      | MinMaxTemperaturePage =>
          match cur with
          | None => (self, MinMaxTemperaturePage_update_main ws)
          | Some i => delegate self (update h ws <$> subpages) i
          end
      | MinMaxHoursPage => (self, MinMaxHoursPage_update h ws)
      | SettingsPage base_path =>
          match cur with
          | None => (self, SettingsPage_update_main h base_path)
          | Some i => delegate self (update h ws <$> subpages) i
          end
      | ShutdownPage => (self, emit (screen_display_text "SHUTDOWN"))
      | RebootPage => (self, emit (screen_display_text "REBOOT"))
      | BackPage => (self, emit (screen_display_text "BACK"))
      end
  end.

(** The tail of a container's [click()] once the subpage's [click()] has
    returned: [if type(subpage) is back: self.current_page = None]. An
    exception in the subpage skips it. *)
Definition leave_if (back : PageClass) (subpage : option Page) (call : Call) : Call :=
  match subpage, result call.2 with
  | Some sub, inr _ =>
      if decide (page_class sub = back)
      then (set_current_page None call.1, call.2)
      else call
  | _, _ => call
  end.

(** [click()], dispatched on the class of [self]. *)
Fixpoint click (self : Page) {struct self} : Call :=
  match self with
  | mkPage c subpages cur =>
      match c with
      | CurrentWeatherPage _ => (self, emit (print "CurrentWeatherPage clicked"))
      | MinMaxTemperaturePage =>
          match cur with
          | None => (set_current_page (Some 0) self, mret tt)
          | Some i =>
              leave_if MinMaxHoursPage (Py.getitem subpages i)
                (delegate self (click <$> subpages) i)
          end
      | MinMaxHoursPage => (self, emit (print "MinMaxHoursPage clicked"))
      | SettingsPage _ =>
          match cur with
          | None => (set_current_page (Some 0) self, mret tt)
          | Some i =>
              leave_if BackPage (Py.getitem subpages i)
                (delegate self (click <$> subpages) i)
          end
      | ShutdownPage => (self, ShutdownPage_click)
      | RebootPage => (self, RebootPage_click)
      | BackPage => (self, emit (print "Back clicked"))
      end
  end.

(** ** Vocabulary of the properties *)

(** The pages the constructors of [pages.py] build. *)
Inductive constructed : Page → Prop :=
| constructed_CurrentWeatherPage base_path :
    constructed (new_CurrentWeatherPage base_path)
| constructed_MinMaxTemperaturePage : constructed new_MinMaxTemperaturePage
| constructed_MinMaxHoursPage : constructed new_MinMaxHoursPage
| constructed_SettingsPage base_path : constructed (new_SettingsPage base_path)
| constructed_ShutdownPage : constructed new_ShutdownPage
| constructed_RebootPage : constructed new_RebootPage
| constructed_BackPage : constructed new_BackPage.

(** [current_page], when present, is a position of [pages]. *)
Definition valid_index (self : Page) : Prop :=
  match current_page self with
  | None => True
  | Some i => 0 <= i < Z.of_nat (length (pages self))
  end.

(** The class and the subpages of [self] are those [origin] was built with. *)
Definition built_as (origin self : Page) : Prop :=
  page_class self = page_class origin ∧ pages self = pages origin.

(** What the driver does to the page it shows: redraw it from the data of
    the moment, or pass it a click. *)
Inductive Op : Type :=
| op_update (h : Host) (ws : WeatherStation)
| op_click.

Definition step (self : Page) (op : Op) : Page :=
  match op with
  | op_update h ws => (update h ws self).1
  | op_click => (click self).1
  end.

(** The page after a sequence of operations, whether or not one of them
    raised. *)
Definition run (ops : list Op) (self : Page) : Page := foldl step self ops.

(** [n] calls of [update()] in a row: the page after the last one and what
    each call rendered. *)
Fixpoint repeat_update (h : Host) (ws : WeatherStation) (n : nat) (self : Page)
    : Page * list (Stmt unit) :=
  match n with
  | O => (self, [])
  | S n' =>
      let '(self', out) := update h ws self in
      let '(final, outs) := repeat_update h ws n' self' in
      (final, out :: outs)
  end.

(** Console output is the log of the program, not part of what the device
    shows or does. *)
Definition is_log (ev : Event) : bool :=
  match ev with
  | print _ => true
  | _ => false
  end.

(** What is left of a trace without the log lines. *)
Definition device_effects (tr : list Event) : list Event :=
  filter (λ ev, is_log ev = false) tr.

(** The character of a decimal digit. *)
Definition digit (n : Z) : Ascii.ascii := Ascii.ascii_of_nat (48 + Z.to_nat n).

(** Both forecast extrema are there. *)
Definition extrema_available (ws : WeatherStation) : Prop :=
  is_Some (coldest ws) ∧ is_Some (hottest ws).

(** A station with a forecast: 3.2 degrees at 06:15, 18.7 degrees at 15:42. *)
Definition forecast_station : WeatherStation := {|
  weather_hour := None; outside_temp := None; inside_temp := None; icon := None;
  coldest := Some {| temp_min := 32 # 10; temp_max := 45 # 10; reference_time := 22500 |};
  hottest := Some {| temp_min := 171 # 10; temp_max := 187 # 10; reference_time := 56520 |}
|}.

(** The same station when only the coldest record came in. *)
Definition coldest_only_station : WeatherStation := {|
  weather_hour := None; outside_temp := None; inside_temp := None; icon := None;
  coldest := coldest forecast_station;
  hottest := None
|}.

(** A station without forecast. *)
Definition blank_station : WeatherStation := {|
  weather_hour := None; outside_temp := None; inside_temp := None; icon := None;
  coldest := None; hottest := None
|}.

(** [MinMaxHoursPage.update()] read as a two-way choice: the formatted
    hours when the extrema are there, the placeholder in every other case. *)
Definition MinMaxHoursPage_update_as_stated (h : Host) (ws : WeatherStation)
    (self : Page) : Prop :=
  (∀ cold hot : Weather,
     coldest ws = Some cold → hottest ws = Some hot →
     (update h ws self).2
     = ([screen_display_top_bottom
           (Py.strftime_HM (fromtimestamp h (reference_time cold)))
           (Py.strftime_HM (fromtimestamp h (reference_time hot)))], inr ()))
  ∧ (¬ extrema_available ws →
     (update h ws self).2 = ([screen_display_top_bottom "Hours" "error"], inr ())).

(** ** Vocabulary of the further properties *)

Definition is_click (op : Op) : bool :=
  match op with
  | op_click => true
  | op_update _ _ => false
  end.

(** How many clicks a sequence of operations holds. *)
Definition clicks (ops : list Op) : nat :=
  length (filter (λ op, is_click op = true) ops).

(** The calls on the [Screen] object. *)
Definition is_screen (ev : Event) : bool :=
  match ev with
  | screen_display _ _ _ | screen_display_top_bottom _ _
  | screen_display_bitmap _ | screen_display_text _ => true
  | print _ | time_sleep _ | os_system _ => false
  end.

(** The calls that draw the content of a page, as opposed to the dots of
    the shutdown and reboot animation. *)
Definition draws_page (ev : Event) : bool :=
  match ev with
  | screen_display _ _ _ | screen_display_top_bottom _ _
  | screen_display_bitmap _ => true
  | screen_display_text _ | print _ | time_sleep _ | os_system _ => false
  end.

(** The classes whose methods pass calls on to [self.pages]. *)
Definition is_container (c : PageClass) : bool :=
  match c with
  | MinMaxTemperaturePage | SettingsPage _ => true
  | _ => false
  end.

(** The page tree with every [current_page] put back to [None]: the classes
    and the nesting of the pages. *)
Fixpoint shape (self : Page) : Page :=
  match self with
  | mkPage c subpages _ => mkPage c (shape <$> subpages) None
  end.

(** The station with another icon code. *)
Definition set_icon (code : option string) (ws : WeatherStation) : WeatherStation :=
  {| weather_hour := weather_hour ws; outside_temp := outside_temp ws;
     inside_temp := inside_temp ws; icon := code;
     coldest := coldest ws; hottest := hottest ws |}.

(** Two stations with the same current conditions. *)
Definition same_conditions (ws ws' : WeatherStation) : Prop :=
  weather_hour ws = weather_hour ws' ∧ outside_temp ws = outside_temp ws'
  ∧ inside_temp ws = inside_temp ws' ∧ icon ws = icon ws'.

(** Two stations with the same forecast. *)
Definition same_forecast (ws ws' : WeatherStation) : Prop :=
  coldest ws = coldest ws' ∧ hottest ws = hottest ws'.

(** The icon file [CurrentWeatherPage.update] opens for an icon code. *)
Definition icon_file (base_path code : string) : Py.Path :=
  Py.PathJoin base_path ("icons/" +:+ Py.prefix 2 code +:+ ".bmp").

(** A statement sequence that either raised before any effect, or returned
    after exactly one call on the screen and nothing else but log lines. *)
Definition draws_once_or_fails (s : Stmt unit) : Prop :=
  (∃ e, s = ([], inl e))
  ∨ (∃ ev, is_screen ev = true ∧ result s = inr ()
           ∧ device_effects (trace s) = [ev]).

(** Everything a [click()] can do. *)
Definition click_outcomes : list (Stmt unit) :=
  [ mret (); raise Py.IndexError;
    emit (print "CurrentWeatherPage clicked");
    emit (print "MinMaxHoursPage clicked");
    emit (print "Back clicked");
    ShutdownPage_click; RebootPage_click ].

(** ** Induction over page trees *)

Section Page_induction.
Variable P : Page → Prop.
Hypothesis P_mkPage : ∀ c subpages cur, Forall P subpages → P (mkPage c subpages cur).

Fixpoint Page_tree_ind (p : Page) : P p :=
  match p with
  | mkPage c subpages cur =>
      P_mkPage c subpages cur
        ((fix all (l : list Page) : Forall P l :=
            match l with
            | [] => List.Forall_nil P
            | sub :: l' => @List.Forall_cons _ P sub l' (Page_tree_ind sub) (all l')
            end) subpages)
  end.
End Page_induction.

(** ** Rounding *)

Lemma round_comp (x y : Q) : (x == y)%Q → Py.round x = Py.round y.
Proof.
  intros E. unfold Py.round.
  rewrite (Qfloor_comp _ _ E).
  assert (C : (x - inject_Z (Qfloor y) ?= 1 # 2)%Q
            = (y - inject_Z (Qfloor y) ?= 1 # 2)%Q).
  { apply Qcompare_comp; [ rewrite E | ]; reflexivity. }
  rewrite C. reflexivity.
Qed.

(** The rounded value is within one half of the number: no integer is
    nearer. *)
Lemma round_nearest (x : Q) : (Qabs (x - inject_Z (Py.round x)) <= 1 # 2)%Q.
Proof.
  pose proof (Qfloor_le x) as Hlo.
  pose proof (Qlt_floor x) as Hhi.
  rewrite inject_Z_plus in Hhi.
  change (inject_Z 1) with 1%Q in Hhi.
  apply Qabs_Qle_condition.
  unfold Py.round.
  destruct (x - inject_Z (Qfloor x) ?= 1 # 2)%Q eqn:C.
  - apply Qeq_alt in C.
    destruct (Z.even (Qfloor x)); [ | rewrite inject_Z_plus; change (inject_Z 1) with 1%Q ];
      split; lra.
  - apply Qlt_alt in C. split; lra.
  - apply Qgt_alt in C. rewrite inject_Z_plus. change (inject_Z 1) with 1%Q.
    split; lra.
Qed.

(** ** [update()] leaves the page tree as it was *)

Lemma delegate_unchanged (self : Page) (f : Page → Call) (i : Z) :
  Forall (λ sub, (f sub).1 = sub) (pages self) →
  (delegate self (f <$> pages self) i).1 = self.
Proof.
  intros IH. unfold delegate.
  destruct (Py.index _ i) as [k|]; [ | reflexivity ].
  rewrite list_lookup_fmap.
  destruct (pages self !! k) as [sub|] eqn:Hk; simpl; [ | reflexivity ].
  pose proof (Forall_lookup_1 _ _ _ _ IH Hk) as Hsub; simpl in Hsub.
  destruct (f sub) as [sub' s]; simpl in *. subst sub'.
  destruct self as [c ps cur]; unfold set_subpage; simpl in *.
  f_equal. by apply list_insert_id.
Qed.

Lemma update_unchanged (h : Host) (ws : WeatherStation) (self : Page) :
  (update h ws self).1 = self.
Proof.
  induction self as [c ps cur IH] using Page_tree_ind.
  destruct c, cur as [i|]; try reflexivity;
    exact (delegate_unchanged (mkPage _ ps (Some i)) (update h ws) i IH).
Qed.

(** ** Navigation *)

(** C3: right after construction every container, [MinMaxTemperaturePage]
    and [SettingsPage] alike, has no current subpage: it shows its main
    page. The same holds for each subpage it was built with. *)
Theorem containers_start_on_main (base_path : string) :
  current_page new_MinMaxTemperaturePage = None
  ∧ current_page (new_SettingsPage base_path) = None
  ∧ Forall (λ sub, current_page sub = None)
      (pages new_MinMaxTemperaturePage ++ pages (new_SettingsPage base_path)).
Proof.
  split; [ reflexivity | split; [ reflexivity | ] ].
  repeat constructor.
Qed.

(** C2: on a fresh [MinMaxTemperaturePage] the first click selects subpage
    0, which is the [MinMaxHoursPage], and the second click, passed on to
    that leaf, brings back the main page: the page is then exactly as it
    was constructed. *)
Theorem MinMaxTemperaturePage_click_click :
  let fresh := new_MinMaxTemperaturePage in
  current_page fresh = None
  ∧ pages fresh = [new_MinMaxHoursPage]
  ∧ click fresh = (set_current_page (Some 0) fresh, ([], inr ()))
  ∧ Py.getitem (pages fresh) 0 = Some new_MinMaxHoursPage
  ∧ click (click fresh).1 = (fresh, ([print "MinMaxHoursPage clicked"], inr ()))
  ∧ current_page (click (click fresh).1).1 = None.
Proof. repeat split. Qed.

(** The subpages a list index of a settings page can read. *)
Lemma SettingsPage_getitem (base_path : string) (i : Z) (sub : Page) :
  Py.getitem (pages (new_SettingsPage base_path)) i = Some sub →
  (i = 0 ∨ i = -3) ∧ sub = new_ShutdownPage
  ∨ (i = 1 ∨ i = -2) ∧ sub = new_RebootPage
  ∨ (i = 2 ∨ i = -1) ∧ sub = new_BackPage.
Proof.
  unfold Py.getitem, Py.index; simpl length.
  repeat case_bool_decide; simpl; try discriminate.
  - assert (i = 0 ∨ i = 1 ∨ i = 2) as [-> | [-> | ->]] by lia;
      simpl; intros [= <-]; auto.
  - assert (i = -3 ∨ i = -2 ∨ i = -1) as [-> | [-> | ->]] by lia;
      simpl; intros [= <-]; auto.
Qed.

(** C1: a click on a [SettingsPage] showing its main page selects subpage
    0, the [ShutdownPage]. A click while a subpage is current runs that
    subpage's [click()], and afterwards the main page is current again
    exactly when that subpage is the [BackPage] (the one at index 2); after
    a click passed on to [ShutdownPage] or [RebootPage] the current subpage
    is the same as before. *)
Theorem SettingsPage_click (base_path : string) :
  let settings cur := set_current_page cur (new_SettingsPage base_path) in
  (click (settings None) = (settings (Some 0), ([], inr ()))
   ∧ pages (settings None) = [new_ShutdownPage; new_RebootPage; new_BackPage]
   ∧ Py.getitem (pages (settings None)) 0 = Some new_ShutdownPage)
  ∧ (∀ (i : Z) (sub : Page),
       Py.getitem (pages (settings (Some i))) i = Some sub →
       click (settings (Some i))
       = (settings (if decide (page_class sub = BackPage) then None else Some i),
          (click sub).2)
       ∧ (current_page (click (settings (Some i))).1 = None
          ↔ page_class sub = BackPage)
       ∧ (page_class sub = BackPage
          ↔ pages (settings (Some i)) !! 2%nat = Some sub))
  ∧ click (settings (Some 0)) = (settings (Some 0), ShutdownPage_click)
  ∧ click (settings (Some 1)) = (settings (Some 1), RebootPage_click)
  ∧ click (settings (Some 2)) = (settings None, ([print "Back clicked"], inr ())).
Proof.
  intros settings.
  split; [ repeat split | ].
  split; [ | repeat split ].
  intros i sub Hsub.
  change (pages (settings (Some i))) with (pages (new_SettingsPage base_path)) in *.
  apply SettingsPage_getitem in Hsub.
  destruct Hsub as [[[-> | ->] ->] | [[[-> | ->] ->] | [[-> | ->] ->]]];
    (split; [ reflexivity | split; split ]);
    first [ reflexivity | discriminate ].
Qed.

(** Subpage 1 of a settings page is the reboot page: a click there reboots
    and stays on that subpage. *)
Lemma SettingsPage_click_witness :
  let on_reboot := set_current_page (Some 1) (new_SettingsPage "/home/pi") in
  click on_reboot = (on_reboot, RebootPage_click)
  ∧ current_page (click on_reboot).1 ≠ None.
Proof.
  pose proof (SettingsPage_click "/home/pi") as [_ [H _]].
  destruct (H 1 new_RebootPage eq_refl) as [Hclick [Hnone _]].
  split.
  - exact Hclick.
  - intros E. apply Hnone in E. discriminate E.
Defined.

(** C8: a click on the [ShutdownPage] or on the [RebootPage] draws ".",
    "..", "..." and "....", sleeps 0.2 s after each, clears the screen and
    only then runs the host command. Apart from the line each logs on the
    console, the two sequences differ in that last command only. *)
Theorem power_pages_click (subpages : list Page) (cur : option Z) :
  let animation :=
    [ screen_display_text "."; time_sleep (2 # 10);
      screen_display_text ".."; time_sleep (2 # 10);
      screen_display_text "..."; time_sleep (2 # 10);
      screen_display_text "...."; time_sleep (2 # 10);
      screen_display_text "" ] in
  click (mkPage ShutdownPage subpages cur)
  = (mkPage ShutdownPage subpages cur,
     (print "Shutdown clicked" :: animation ++ [os_system "sudo shutdown -h now"],
      inr ()))
  ∧ click (mkPage RebootPage subpages cur)
    = (mkPage RebootPage subpages cur,
       (print "Reboot clicked" :: animation ++ [os_system "sudo reboot"],
        inr ()))
  ∧ device_effects (trace (click (mkPage ShutdownPage subpages cur)).2)
    = animation ++ [os_system "sudo shutdown -h now"]
  ∧ device_effects (trace (click (mkPage RebootPage subpages cur)).2)
    = animation ++ [os_system "sudo reboot"]
  ∧ ((2 # 10) * 1000 == 200)%Q.
Proof. repeat split. Qed.

(** One operation keeps the class and the subpages of the page and leaves
    its index valid. *)
Lemma step_preserves (origin self : Page) (op : Op) :
  constructed origin → built_as origin self → valid_index self →
  built_as origin (step self op) ∧ valid_index (step self op).
Proof.
  intros Hc [Hcls Hps] Hv.
  destruct op as [h ws|]; simpl.
  { rewrite update_unchanged. by repeat split. }
  destruct self as [c ps cur]; simpl in Hcls, Hps; subst c ps.
  unfold valid_index in Hv; simpl in Hv.
  destruct Hc; try (by repeat split); destruct cur as [i|];
    try (repeat split; unfold valid_index; simpl; lia); simpl in Hv.
  - assert (i = 0) as -> by lia. by repeat split.
  - assert (i = 0 ∨ i = 1 ∨ i = 2) as [-> | [-> | ->]] by lia;
      repeat split; unfold valid_index; simpl; lia.
Qed.

Lemma run_preserves (origin : Page) (ops : list Op) :
  constructed origin →
  ∀ self, built_as origin self → valid_index self →
  built_as origin (run ops self) ∧ valid_index (run ops self).
Proof.
  intros Hc. induction ops as [|op ops IH]; intros self Hb Hv; simpl.
  - by split.
  - destruct (step_preserves origin self op Hc Hb Hv) as [Hb' Hv'].
    by apply IH.
Qed.

Lemma constructed_valid (origin : Page) : constructed origin → valid_index origin.
Proof. by intros []. Qed.

(** C4: from construction on, whatever sequence of [update()] and
    [click()] calls a page receives, its list of subpages stays the one it
    was built with and [current_page], when present, is a position of that
    list; each single operation keeps these two facts. *)
Theorem valid_index_invariant (origin : Page) :
  constructed origin →
  (∀ ops : list Op,
     built_as origin (run ops origin) ∧ valid_index (run ops origin))
  ∧ (∀ (self : Page) (op : Op),
       built_as origin self → valid_index self →
       built_as origin (step self op) ∧ valid_index (step self op)).
Proof.
  intros Hc. split.
  - intros ops. apply run_preserves; [ done | by split | by apply constructed_valid ].
  - intros self op. by apply step_preserves.
Qed.

(** A settings page that is clicked, redrawn and clicked again shows
    subpage 0 of its three subpages. *)
Lemma valid_index_invariant_witness :
  let ws := {| weather_hour := None; outside_temp := None; inside_temp := None;
               icon := None; coldest := None; hottest := None |} in
  let ops := [op_click; op_update bare_host ws; op_click] in
  constructed (new_SettingsPage "/home/pi")
  ∧ pages (run ops (new_SettingsPage "/home/pi")) = pages (new_SettingsPage "/home/pi")
  ∧ valid_index (run ops (new_SettingsPage "/home/pi")).
Proof.
  intros ws ops.
  assert (Hc : constructed (new_SettingsPage "/home/pi")) by constructor.
  destruct (valid_index_invariant _ Hc) as [Hrun _].
  destruct (Hrun ops) as [[_ Hpages] Hvalid].
  split; [ exact Hc | split; [ exact Hpages | exact Hvalid ] ].
Defined.

(** ** Rendering *)

(** C9: with the host and the station data fixed and no click in between,
    every [update()] leaves the page as it found it, so a second call
    renders what the first did, and so does each of [n] calls in a row. *)
Theorem update_repeatable (h : Host) (ws : WeatherStation) (self : Page) (n : nat) :
  (update h ws self).1 = self
  ∧ update h ws (update h ws self).1 = update h ws self
  ∧ repeat_update h ws n self = (self, replicate n (update h ws self).2).
Proof.
  pose proof (update_unchanged h ws self) as Hself.
  split; [ exact Hself | split; [ by rewrite Hself | ] ].
  induction n as [|n IH]; simpl; [ reflexivity | ].
  destruct (update h ws self) as [self' out]; simpl in *; subst self'.
  by rewrite IH.
Qed.

(** C5: [CurrentWeatherPage.update()] without outside data passes no
    outside temperature and no icon to [Screen.display] and still the
    inside text when there is an inside temperature. With outside data, each
    temperature is shown as the decimal text of the nearest integer and the
    icon is the bitmap named by the first two characters of the icon code:
    21.6 and "10d" give "22" and icons/10.bmp. *)
Theorem CurrentWeatherPage_update_renders (h : Host) (ws : WeatherStation)
    (base_path : string) (subpages : list Page) (cur : option Z) :
  let self := mkPage (CurrentWeatherPage base_path) subpages cur in
  let text := λ t : Q, Py.str (Py.round t) in
  (weather_hour ws = None →
   update h ws self
   = (self, ([screen_display None (text <$> inside_temp ws) None;
              print "Screen updated."], inr ())))
  ∧ (∀ (t : Q) (code : string),
       is_Some (weather_hour ws) → outside_temp ws = Some t → icon ws = Some code →
       let icon_file :=
         Py.PathJoin base_path ("icons/" +:+ Py.prefix 2 code +:+ ".bmp") in
       file_exists h icon_file = true →
       update h ws self
       = (self, ([screen_display (Some (text t)) (text <$> inside_temp ws)
                    (Some (Py.ImageOf icon_file));
                  print "Screen updated."], inr ())))
  ∧ (∀ t : Q, (Qabs (t - inject_Z (Py.round t)) <= 1 # 2)%Q)
  ∧ (∀ t : Q, (t == 216 # 10)%Q → text t = "22")
  ∧ text (3039929748475085 # 140737488355328) = "22"
  ∧ "icons/" +:+ Py.prefix 2 "10d" +:+ ".bmp" = "icons/10.bmp".
Proof.
  intros self text. repeat split.
  - intros Hno. unfold self; simpl. unfold CurrentWeatherPage_update.
    rewrite Hno. by destruct (inside_temp ws).
  - intros t code [wh Hwh] Ht Hcode icon_file Hfile.
    unfold self; cbn [update]. unfold CurrentWeatherPage_update, round_of.
    rewrite Hwh, Ht, Hcode. cbn [present mbind Stmt_bind stmt_bind mret Stmt_ret stmt_ret].
    fold icon_file. unfold Image_open. rewrite Hfile.
    by destruct (inside_temp ws).
  - apply round_nearest.
  - intros t Ht. unfold text. by rewrite (round_comp _ _ Ht).
Qed.

(** The example of the claim: 21.6 outside, 19.4 inside, icon "10d". *)
Lemma CurrentWeatherPage_update_renders_witness :
  let ws := {| weather_hour := Some 14; outside_temp := Some (216 # 10);
               inside_temp := Some (194 # 10); icon := Some "10d";
               coldest := None; hottest := None |} in
  let self := new_CurrentWeatherPage "/home/pi" in
  update utc_host ws self
  = (self, ([screen_display (Some "22") (Some "19")
               (Some (Py.ImageOf (Py.PathJoin "/home/pi" "icons/10.bmp")));
             print "Screen updated."], inr ()))
  ∧ update utc_host
      {| weather_hour := None; outside_temp := None;
         inside_temp := Some (194 # 10); icon := None;
         coldest := None; hottest := None |} self
    = (self, ([screen_display None (Some "19") None;
               print "Screen updated."], inr ())).
Proof.
  intros ws self. split.
  - destruct (CurrentWeatherPage_update_renders utc_host ws "/home/pi" [] None)
      as (_ & Hout & _).
    exact (Hout (216 # 10)%Q "10d" (ex_intro _ 14 eq_refl) eq_refl eq_refl eq_refl).
  - destruct (CurrentWeatherPage_update_renders utc_host
                {| weather_hour := None; outside_temp := None;
                   inside_temp := Some (194 # 10); icon := None;
                   coldest := None; hottest := None |} "/home/pi" [] None)
      as (Hno & _).
    exact (Hno eq_refl).
Defined.

(** C6: [MinMaxTemperaturePage.update()] on the main page renders
    "Min:" and "Max:" followed by the rounded coldest and hottest
    temperatures when both extrema are there (3.2 and 18.7 give "Min:3" and
    "Max:19"), and ("Min Max", "error") when there is no forecast. *)
Theorem MinMaxTemperaturePage_update_renders (h : Host) (ws : WeatherStation)
    (subpages : list Page) :
  let self := mkPage MinMaxTemperaturePage subpages None in
  (∀ cold hot : Weather,
     coldest ws = Some cold → hottest ws = Some hot →
     update h ws self
     = (self, ([screen_display_top_bottom
                  ("Min:" +:+ Py.str (Py.round (temp_min cold)))
                  ("Max:" +:+ Py.str (Py.round (temp_max hot)))], inr ())))
  ∧ (coldest ws = None →
     update h ws self
     = (self, ([screen_display_top_bottom "Min Max" "error"], inr ())))
  ∧ (∀ lo hi : Q, (lo == 32 # 10)%Q → (hi == 187 # 10)%Q →
     "Min:" +:+ Py.str (Py.round lo) = "Min:3"
     ∧ "Max:" +:+ Py.str (Py.round hi) = "Max:19").
Proof.
  intros self. split; [ | split ].
  - intros cold hot Hcold Hhot. unfold self; cbn [update].
    unfold MinMaxTemperaturePage_update_main. by rewrite Hcold, Hhot.
  - intros Hcold. unfold self; cbn [update].
    unfold MinMaxTemperaturePage_update_main. by rewrite Hcold.
  - intros lo hi Hlo Hhi. by rewrite (round_comp _ _ Hlo), (round_comp _ _ Hhi).
Qed.

(** The two examples of the claim on a fresh page. *)
Lemma MinMaxTemperaturePage_update_renders_witness :
  update utc_host forecast_station new_MinMaxTemperaturePage
  = (new_MinMaxTemperaturePage, ([screen_display_top_bottom "Min:3" "Max:19"], inr ()))
  ∧ update utc_host blank_station new_MinMaxTemperaturePage
    = (new_MinMaxTemperaturePage, ([screen_display_top_bottom "Min Max" "error"], inr ())).
Proof.
  split.
  - destruct (MinMaxTemperaturePage_update_renders utc_host forecast_station
                (pages new_MinMaxTemperaturePage)) as (Hboth & _).
    exact (Hboth _ _ eq_refl eq_refl).
  - destruct (MinMaxTemperaturePage_update_renders utc_host blank_station
                (pages new_MinMaxTemperaturePage)) as (_ & Hnone & _).
    exact (Hnone eq_refl).
Defined.

(** [%H] and [%M] write the tens and the units. *)
Lemma two_digits_spec (n : Z) :
  0 <= n < 100 →
  Py.two_digits n = String (digit (n `div` 10)) (String (digit (n `mod` 10)) "").
Proof.
  intros Hn.
  assert (∃ k : nat, (k < 100)%nat ∧ n = Z.of_nat k) as (k & Hk & ->).
  { exists (Z.to_nat n). lia. }
  do 100 (destruct k as [|k]; [ vm_compute; reflexivity | ]).
  lia.
Qed.

Lemma strftime_HM_shape (d : Py.datetime) :
  0 <= Py.hour d < 24 → 0 <= Py.minute d < 60 →
  Py.strftime_HM d
  = String (digit (Py.hour d `div` 10)) (String (digit (Py.hour d `mod` 10)) "")
    +:+ ":"
    +:+ String (digit (Py.minute d `div` 10)) (String (digit (Py.minute d `mod` 10)) "").
Proof.
  intros Hh Hm. unfold Py.strftime_HM.
  rewrite !two_digits_spec by lia. reflexivity.
Qed.

(** C7, refuted as written: with the coldest record there and the hottest
    one missing, [MinMaxHoursPage.update()] renders neither the hours nor
    the placeholder; it raises at [self.weather_station.hottest]. *)
Lemma MinMaxHoursPage_update_as_stated_fails :
  ¬ MinMaxHoursPage_update_as_stated utc_host coldest_only_station new_MinMaxHoursPage
  ∧ update utc_host coldest_only_station new_MinMaxHoursPage
    = (new_MinMaxHoursPage, ([], inl Py.AttributeError)).
Proof.
  split; [ | reflexivity ].
  intros [_ Helse].
  assert (Hno : ¬ extrema_available coldest_only_station).
  { intros [_ [hot Hhot]]. discriminate Hhot. }
  specialize (Helse Hno). discriminate Helse.
Qed.

(** C7, amended: [MinMaxHoursPage.update()] renders the local time of
    day of the two extrema as HH:MM when both are there (06:15 and 15:42
    give "06:15" and "15:42"), and ("Hours", "error") when the coldest
    record is absent. *)
Theorem MinMaxHoursPage_update_renders (h : Host) (ws : WeatherStation)
    (subpages : list Page) (cur : option Z) :
  let self := mkPage MinMaxHoursPage subpages cur in
  (∀ cold hot : Weather,
     coldest ws = Some cold → hottest ws = Some hot →
     update h ws self
     = (self, ([screen_display_top_bottom
                  (Py.strftime_HM (fromtimestamp h (reference_time cold)))
                  (Py.strftime_HM (fromtimestamp h (reference_time hot)))], inr ())))
  ∧ (coldest ws = None →
     update h ws self
     = (self, ([screen_display_top_bottom "Hours" "error"], inr ())))
  ∧ (∀ d : Py.datetime,
       0 <= Py.hour d < 24 → 0 <= Py.minute d < 60 →
       Py.strftime_HM d
       = String (digit (Py.hour d `div` 10)) (String (digit (Py.hour d `mod` 10)) "")
         +:+ ":"
         +:+ String (digit (Py.minute d `div` 10))
               (String (digit (Py.minute d `mod` 10)) ""))
  ∧ Py.strftime_HM {| Py.hour := 6; Py.minute := 15 |} = "06:15"
  ∧ Py.strftime_HM {| Py.hour := 15; Py.minute := 42 |} = "15:42".
Proof.
  intros self. repeat split.
  - intros cold hot Hcold Hhot. unfold self; cbn [update].
    unfold MinMaxHoursPage_update. by rewrite Hcold, Hhot.
  - intros Hcold. unfold self; cbn [update].
    unfold MinMaxHoursPage_update. by rewrite Hcold.
  - apply strftime_HM_shape.
Qed.

(** On a UTC host the forecast of [forecast_station] is shown as 06:15 and
    15:42, and a station without forecast gets the placeholder. *)
Lemma MinMaxHoursPage_update_renders_witness :
  update utc_host forecast_station new_MinMaxHoursPage
  = (new_MinMaxHoursPage, ([screen_display_top_bottom "06:15" "15:42"], inr ()))
  ∧ update utc_host blank_station new_MinMaxHoursPage
    = (new_MinMaxHoursPage, ([screen_display_top_bottom "Hours" "error"], inr ())).
Proof.
  split.
  - destruct (MinMaxHoursPage_update_renders utc_host forecast_station [] None)
      as (Hboth & _).
    exact (Hboth _ _ eq_refl eq_refl).
  - destruct (MinMaxHoursPage_update_renders utc_host blank_station [] None)
      as (_ & Hnone & _).
    exact (Hnone eq_refl).
Defined.

(** No formatted time is the word "Hours". *)
Lemma colon_not_in_Hours (s t : string) : s +:+ ":" +:+ t ≠ "Hours".
Proof.
  destruct s as [|a1 [|a2 [|a3 [|a4 [|a5 [|a6 s]]]]]]; simpl; intros E;
    inversion E.
Qed.

(** C10: the forecast is taken to be there as soon as the coldest record
    is. With the coldest record present and the hottest absent, the main
    page of [MinMaxTemperaturePage] and [MinMaxHoursPage] both raise
    [AttributeError] at the hottest record without drawing anything, not
    even the placeholder; the placeholder is rendered exactly when the
    coldest record is absent. *)
Theorem forecast_keyed_on_coldest (h : Host) (ws : WeatherStation)
    (subpages : list Page) (cur : option Z) :
  let minmax := mkPage MinMaxTemperaturePage subpages None in
  let hours := mkPage MinMaxHoursPage subpages cur in
  (is_Some (coldest ws) → hottest ws = None →
   update h ws minmax = (minmax, ([], inl Py.AttributeError))
   ∧ update h ws hours = (hours, ([], inl Py.AttributeError)))
  ∧ (update h ws minmax
     = (minmax, ([screen_display_top_bottom "Min Max" "error"], inr ()))
     ↔ coldest ws = None)
  ∧ (update h ws hours
     = (hours, ([screen_display_top_bottom "Hours" "error"], inr ()))
     ↔ coldest ws = None).
Proof.
  intros minmax hours. unfold minmax, hours; cbn [update].
  unfold MinMaxTemperaturePage_update_main, MinMaxHoursPage_update.
  split; [ | split ].
  - intros [cold Hcold] Hhot. by rewrite Hcold, Hhot.
  - split; [ | by intros -> ].
    destruct (coldest ws) as [cold|]; [ | done ].
    destruct (hottest ws) as [hot|]; simpl; intros E; inversion E.
  - split; [ | by intros -> ].
    destruct (coldest ws) as [cold|]; [ | done ].
    destruct (hottest ws) as [hot|]; simpl; intros E; [ | inversion E ].
    exfalso. injection E as E _. by apply colon_not_in_Hours in E.
Qed.

(** With only the coldest record, both forecast pages raise. *)
Lemma forecast_keyed_on_coldest_witness :
  update utc_host coldest_only_station new_MinMaxTemperaturePage
  = (new_MinMaxTemperaturePage, ([], inl Py.AttributeError))
  ∧ update utc_host coldest_only_station (mkPage MinMaxHoursPage (pages new_MinMaxTemperaturePage) None)
    = (mkPage MinMaxHoursPage (pages new_MinMaxTemperaturePage) None,
       ([], inl Py.AttributeError)).
Proof.
  destruct (forecast_keyed_on_coldest utc_host coldest_only_station
              (pages new_MinMaxTemperaturePage) None) as (Hraise & _).
  exact (Hraise (ex_intro _ _ eq_refl) eq_refl).
Defined.

(** ** Further properties: navigation *)

Lemma SettingsPage_on_shutdown_stays (base_path : string) (ops : list Op) :
  let on_shutdown := set_current_page (Some 0) (new_SettingsPage base_path) in
  run ops on_shutdown = on_shutdown.
Proof.
  intros on_shutdown. induction ops as [|[h ws|] ops IH].
  - reflexivity.
  - change (run (op_update h ws :: ops) on_shutdown)
      with (run ops (update h ws on_shutdown).1).
    by rewrite update_unchanged.
  - exact IH.
Qed.

(** X1: clicks alone never get a settings page past its first subpage.
    After any sequence of updates and clicks a fresh [SettingsPage] is on
    its main page if no click came yet and on the [ShutdownPage] otherwise.
    The next click enters the menu in the first case and runs the shutdown
    sequence in the second; the next update draws the cogwheel in the first
    case and SHUTDOWN in the second. The reboot and the back page are never
    current. *)
Theorem SettingsPage_clicks_end_in_shutdown (h : Host) (ws : WeatherStation)
    (base_path : string) (ops : list Op) :
  let fresh := new_SettingsPage base_path in
  run ops fresh
  = set_current_page (if existsb is_click ops then Some 0 else None) fresh
  ∧ (click (run ops fresh)).2
    = (if existsb is_click ops then ShutdownPage_click else mret ())
  ∧ (update h ws (run ops fresh)).2
    = (if existsb is_click ops then emit (screen_display_text "SHUTDOWN")
       else SettingsPage_update_main h base_path).
Proof.
  intros fresh.
  assert (Hrun : run ops fresh
                 = set_current_page (if existsb is_click ops then Some 0 else None) fresh).
  { unfold fresh. induction ops as [|[h' ws'|] ops IH].
    - reflexivity.
    - change (run (op_update h' ws' :: ops) (new_SettingsPage base_path))
        with (run ops (update h' ws' (new_SettingsPage base_path)).1).
      rewrite update_unchanged. exact IH.
    - apply SettingsPage_on_shutdown_stays. }
  split; [ exact Hrun | ].
  rewrite Hrun. by destruct (existsb is_click ops).
Qed.

(** Two clicks with an update in between: the page shows SHUTDOWN and the
    next click shuts the host down. *)
Lemma SettingsPage_clicks_end_in_shutdown_example :
  let ops := [op_click; op_update bare_host blank_station; op_click] in
  (click (run ops (new_SettingsPage "/home/pi"))).2 = ShutdownPage_click
  ∧ (update bare_host blank_station (run ops (new_SettingsPage "/home/pi"))).2
    = ([screen_display_text "SHUTDOWN"], inr ()).
Proof.
  intros ops.
  destruct (SettingsPage_clicks_end_in_shutdown bare_host blank_station "/home/pi" ops)
    as (_ & Hclick & Hupdate).
  split; [ exact Hclick | exact Hupdate ].
Defined.

Lemma MinMaxTemperaturePage_run (ops : list Op) (on_hours : bool) :
  let page (b : bool) :=
    set_current_page (if b then Some 0 else None) new_MinMaxTemperaturePage in
  run ops (page on_hours) = page (xorb on_hours (Nat.odd (clicks ops))).
Proof.
  intros page. revert on_hours.
  induction ops as [|[h ws|] ops IH]; intros on_hours.
  - by destruct on_hours.
  - change (run (op_update h ws :: ops) (page on_hours))
      with (run ops (update h ws (page on_hours)).1).
    rewrite update_unchanged. apply IH.
  - change (clicks (op_click :: ops)) with (S (clicks ops)).
    rewrite Nat.odd_succ, <- Nat.negb_odd.
    change (run (op_click :: ops) (page on_hours))
      with (run ops (click (page on_hours)).1).
    replace (click (page on_hours)).1 with (page (negb on_hours))
      by (by destruct on_hours).
    rewrite IH. f_equal.
    by destruct on_hours, (Nat.odd (clicks ops)).
Qed.

(** X2: a [MinMaxTemperaturePage] toggles. After any sequence of updates
    and clicks from construction it is on the hours subpage when the number
    of clicks so far is odd and on its main page when that number is even,
    and the next update draws what [MinMaxHoursPage.update] draws in the
    first case and the minimum and maximum in the second. *)
Theorem MinMaxTemperaturePage_toggles (h : Host) (ws : WeatherStation)
    (ops : list Op) :
  run ops new_MinMaxTemperaturePage
  = set_current_page (if Nat.odd (clicks ops) then Some 0 else None)
      new_MinMaxTemperaturePage
  ∧ (update h ws (run ops new_MinMaxTemperaturePage)).2
    = (if Nat.odd (clicks ops) then MinMaxHoursPage_update h ws
       else MinMaxTemperaturePage_update_main ws).
Proof.
  assert (Hrun : run ops new_MinMaxTemperaturePage
                 = set_current_page (if Nat.odd (clicks ops) then Some 0 else None)
                     new_MinMaxTemperaturePage)
    by exact (MinMaxTemperaturePage_run ops false).
  split; [ exact Hrun | ].
  rewrite Hrun. by destruct (Nat.odd (clicks ops)).
Qed.

Lemma shape_set_current_page (cur : option Z) (self : Page) :
  shape (set_current_page cur self) = shape self.
Proof. by destruct self. Qed.

Lemma shape_delegate (self : Page) (f : Page → Call) (i : Z) :
  Forall (λ sub, shape (f sub).1 = shape sub) (pages self) →
  shape (delegate self (f <$> pages self) i).1 = shape self.
Proof.
  intros IH. unfold delegate.
  destruct (Py.index _ i) as [k|]; [ | reflexivity ].
  rewrite list_lookup_fmap.
  destruct (pages self !! k) as [sub|] eqn:Hk; simpl; [ | reflexivity ].
  pose proof (Forall_lookup_1 _ _ _ _ IH Hk) as Hsub; simpl in Hsub.
  destruct (f sub) as [sub' s]; simpl in *.
  destruct self as [c ps cur]; unfold set_subpage; simpl in *.
  f_equal. rewrite list_fmap_insert, Hsub.
  apply list_insert_id. by rewrite list_lookup_fmap, Hk.
Qed.

Lemma shape_leave_if (back : PageClass) (subpage : option Page) (call : Call) :
  shape (leave_if back subpage call).1 = shape call.1.
Proof.
  unfold leave_if. destruct subpage as [sub|]; [ | reflexivity ].
  destruct (result call.2); [ reflexivity | ].
  destruct (decide _); [ apply shape_set_current_page | reflexivity ].
Qed.

(** X3: on any page tree, however deep, [click()] changes nothing but
    [current_page] fields: the classes and the subpage lists of the whole
    tree are the same before and after. *)
Theorem click_keeps_shape (self : Page) : shape (click self).1 = shape self.
Proof.
  induction self as [c ps cur IH] using Page_tree_ind.
  destruct c, cur as [i|]; try reflexivity; cbn [click].
  - rewrite shape_leave_if.
    exact (shape_delegate (mkPage _ ps (Some i)) click i IH).
  - rewrite shape_leave_if.
    exact (shape_delegate (mkPage _ ps (Some i)) click i IH).
Qed.

Lemma index_out_of_range (len : nat) (i : Z) :
  ¬ (- Z.of_nat len <= i < Z.of_nat len) → Py.index len i = None.
Proof.
  intros Hi. unfold Py.index.
  rewrite !bool_decide_eq_false_2 by lia. reflexivity.
Qed.

(** X4: a container whose [current_page] is outside the range Python
    accepts for its subpage list (below minus the length, or at least the
    length) raises [IndexError] on [update()] and on [click()] alike, draws
    nothing, and stays as it was. *)
Theorem container_index_out_of_range (h : Host) (ws : WeatherStation)
    (c : PageClass) (subpages : list Page) (i : Z) :
  is_container c = true →
  ¬ (- Z.of_nat (length subpages) <= i < Z.of_nat (length subpages)) →
  let self := mkPage c subpages (Some i) in
  update h ws self = (self, ([], inl Py.IndexError))
  ∧ click self = (self, ([], inl Py.IndexError)).
Proof.
  intros Hc Hi self.
  pose proof (index_out_of_range _ _ Hi) as Hidx.
  destruct c; try discriminate Hc; unfold self; cbn [update click];
    unfold delegate, Py.getitem; cbn [pages]; rewrite Hidx; by split.
Qed.

(** With index 1 a [MinMaxTemperaturePage], which has one subpage, raises. *)
Lemma container_index_out_of_range_witness :
  let self := set_current_page (Some 1) new_MinMaxTemperaturePage in
  update utc_host forecast_station self = (self, ([], inl Py.IndexError))
  ∧ click self = (self, ([], inl Py.IndexError)).
Proof.
  apply (container_index_out_of_range utc_host forecast_station
           MinMaxTemperaturePage (pages new_MinMaxTemperaturePage) 1).
  - reflexivity.
  - simpl. lia.
Defined.

(** ** Further properties: delegation *)

Lemma leave_if_snd (back : PageClass) (subpage : option Page) (call : Call) :
  (leave_if back subpage call).2 = call.2.
Proof.
  unfold leave_if. destruct subpage as [sub|]; [ | reflexivity ].
  destruct (result call.2); [ reflexivity | ].
  by destruct (decide _).
Qed.

(** What a delegated call runs: the method of the subpage the index reads,
    or nothing but [IndexError]. *)
Lemma delegate_snd (self : Page) (f : Page → Call) (i : Z) :
  (delegate self (f <$> pages self) i).2
  = match Py.getitem (pages self) i with
    | Some sub => (f sub).2
    | None => raise Py.IndexError
    end.
Proof.
  unfold delegate, Py.getitem.
  destruct (Py.index _ i) as [k|]; simpl; [ | reflexivity ].
  rewrite list_lookup_fmap.
  destruct (pages self !! k) as [sub|]; simpl; [ | reflexivity ].
  by destruct (f sub).
Qed.

(** X5: a container with a current subpage passes both methods on to the
    subpage Python's indexing reads, negative indices included:
    [update()] renders exactly what that subpage's [update()] renders and
    changes nothing, and [click()] does exactly what that subpage's
    [click()] does. *)
Theorem container_delegates (h : Host) (ws : WeatherStation) (c : PageClass)
    (subpages : list Page) (i : Z) (sub : Page) :
  is_container c = true →
  Py.getitem subpages i = Some sub →
  let self := mkPage c subpages (Some i) in
  update h ws self = (self, (update h ws sub).2)
  ∧ (click self).2 = (click sub).2.
Proof.
  intros Hc Hsub self. split.
  - rewrite (surjective_pairing (update h ws self)), update_unchanged.
    f_equal. unfold self.
    destruct c; try discriminate Hc; cbn [update];
      rewrite (delegate_snd (mkPage _ subpages (Some i)) (update h ws) i);
      cbn [pages]; by rewrite Hsub.
  - unfold self.
    destruct c; try discriminate Hc; cbn [click];
      rewrite leave_if_snd,
        (delegate_snd (mkPage _ subpages (Some i)) click i);
      cbn [pages]; by rewrite Hsub.
Qed.

(** Index -1 of a settings page reads the back page. *)
Lemma container_delegates_witness :
  let self := set_current_page (Some (-1)) (new_SettingsPage "/home/pi") in
  update bare_host blank_station self = (self, ([screen_display_text "BACK"], inr ()))
  ∧ (click self).2 = ([print "Back clicked"], inr ()).
Proof.
  apply (container_delegates bare_host blank_station (SettingsPage "/home/pi")
           (pages (new_SettingsPage "/home/pi")) (-1) new_BackPage);
    reflexivity.
Defined.

(** X6: what a settings page draws. On its main page it opens
    [icons/cog.bmp] under its base path and shows it, or raises
    [FileNotFoundError] without drawing when the file is missing; on
    subpage 0, 1 and 2 it shows the text SHUTDOWN, REBOOT and BACK. None of
    this depends on the weather data, and the three labels do not depend on
    the file system either. *)
Theorem SettingsPage_update_renders (h : Host) (ws : WeatherStation)
    (base_path : string) :
  let settings cur := set_current_page cur (new_SettingsPage base_path) in
  let cog := Py.PathJoin base_path "icons/cog.bmp" in
  update h ws (settings None)
  = (settings None,
     if file_exists h cog
     then ([screen_display_bitmap (Py.ImageOf cog)], inr ())
     else ([], inl Py.FileNotFoundError))
  ∧ update h ws (settings (Some 0))
    = (settings (Some 0), ([screen_display_text "SHUTDOWN"], inr ()))
  ∧ update h ws (settings (Some 1))
    = (settings (Some 1), ([screen_display_text "REBOOT"], inr ()))
  ∧ update h ws (settings (Some 2))
    = (settings (Some 2), ([screen_display_text "BACK"], inr ())).
Proof.
  intros settings cog. split; [ | by repeat split ].
  unfold settings; cbn [update new_SettingsPage set_current_page page_class
    pages_append Page_init].
  unfold SettingsPage_update_main, Image_open. fold cog.
  by destruct (file_exists h cog).
Qed.

(** ** Further properties: what the methods do and never do *)

(** The two ways to show [draws_once_or_fails] of a statement sequence
    that evaluates. *)
Ltac stmt_fails := left; eexists; reflexivity.
Ltac stmt_draws :=
  right; eexists; split; [ | split ]; cycle 2;
  [ reflexivity | reflexivity | reflexivity ].

Lemma CurrentWeatherPage_update_draws (h : Host) (ws : WeatherStation)
    (base_path : string) :
  draws_once_or_fails (CurrentWeatherPage_update h ws base_path).
Proof.
  unfold CurrentWeatherPage_update, round_of, Image_open.
  destruct (weather_hour ws), (outside_temp ws), (icon ws) as [code|];
    try stmt_fails;
    try (destruct (inside_temp ws); stmt_draws).
  cbn [present mbind Stmt_bind stmt_bind mret Stmt_ret stmt_ret].
  destruct (file_exists h _); [ | stmt_fails ].
  destruct (inside_temp ws); stmt_draws.
Qed.

Lemma MinMaxTemperaturePage_update_main_draws (ws : WeatherStation) :
  draws_once_or_fails (MinMaxTemperaturePage_update_main ws).
Proof.
  unfold MinMaxTemperaturePage_update_main.
  destruct (coldest ws), (hottest ws); first [ stmt_draws | stmt_fails ].
Qed.

Lemma MinMaxHoursPage_update_draws (h : Host) (ws : WeatherStation) :
  draws_once_or_fails (MinMaxHoursPage_update h ws).
Proof.
  unfold MinMaxHoursPage_update.
  destruct (coldest ws), (hottest ws); first [ stmt_draws | stmt_fails ].
Qed.

Lemma SettingsPage_update_main_draws (h : Host) (base_path : string) :
  draws_once_or_fails (SettingsPage_update_main h base_path).
Proof.
  unfold SettingsPage_update_main, Image_open.
  destruct (file_exists h _); [ stmt_draws | stmt_fails ].
Qed.

Lemma delegate_draws (self : Page) (f : Page → Call) (i : Z) :
  Forall (λ sub, draws_once_or_fails (f sub).2) (pages self) →
  draws_once_or_fails (delegate self (f <$> pages self) i).2.
Proof.
  intros IH. rewrite delegate_snd. unfold Py.getitem.
  destruct (Py.index _ i) as [k|]; simpl; [ | stmt_fails ].
  destruct (pages self !! k) as [sub|] eqn:Hk; simpl; [ | stmt_fails ].
  exact (Forall_lookup_1 _ _ _ _ IH Hk).
Qed.

(** X7: on any page tree and with any host and station data, [update()]
    either raises before it has done anything, so that the screen keeps
    what it showed, or returns after exactly one call on the screen; it
    never sleeps and never runs a host command. *)
Theorem update_draws_once_or_fails (h : Host) (ws : WeatherStation) (self : Page) :
  ((∃ e, (update h ws self).2 = ([], inl e))
   ∨ (∃ ev, is_screen ev = true ∧ result (update h ws self).2 = inr ()
            ∧ device_effects (trace (update h ws self).2) = [ev])).
Proof.
  change (draws_once_or_fails (update h ws self).2).
  induction self as [c ps cur IH] using Page_tree_ind.
  destruct c, cur as [i|]; cbn [update snd];
    first
      [ apply CurrentWeatherPage_update_draws
      | apply MinMaxTemperaturePage_update_main_draws
      | apply MinMaxHoursPage_update_draws
      | apply SettingsPage_update_main_draws
      | exact (delegate_draws (mkPage _ ps (Some i)) (update h ws) i IH)
      | stmt_draws ].
Qed.

(** Membership in a list that is written out. *)
Ltac in_list :=
  repeat first [ apply list_elem_of_here | apply list_elem_of_further ].

Lemma click_outcome (self : Page) : (click self).2 ∈ click_outcomes.
Proof.
  induction self as [c ps cur IH] using Page_tree_ind.
  destruct c, cur as [i|]; cbn [click snd];
    try (unfold click_outcomes; by in_list).
  - rewrite leave_if_snd, (delegate_snd (mkPage _ ps (Some i)) click i).
    cbn [pages]. destruct (Py.getitem ps i) as [sub|] eqn:Hsub.
    + unfold Py.getitem in Hsub. destruct (Py.index _ i) as [k|]; [ | done ].
      exact (Forall_lookup_1 _ _ _ _ IH Hsub).
    + unfold click_outcomes; by in_list.
  - rewrite leave_if_snd, (delegate_snd (mkPage _ ps (Some i)) click i).
    cbn [pages]. destruct (Py.getitem ps i) as [sub|] eqn:Hsub.
    + unfold Py.getitem in Hsub. destruct (Py.index _ i) as [k|]; [ | done ].
      exact (Forall_lookup_1 _ _ _ _ IH Hsub).
    + unfold click_outcomes; by in_list.
Qed.

(** X8: on any page tree a [click()] does one of seven things: nothing
    (entering a menu), raise [IndexError], log one of three lines, or run
    the shutdown or the reboot sequence. So a click never redraws a page,
    the screen shows the new page only at the next [update()], and when a
    click fails it fails with [IndexError] before any effect. *)
Theorem click_does_one_of_seven (self : Page) :
  (click self).2 ∈ click_outcomes
  ∧ Forall (λ ev, draws_page ev = false) (trace (click self).2)
  ∧ (∀ e, result (click self).2 = inl e →
          e = Py.IndexError ∧ trace (click self).2 = []).
Proof.
  pose proof (click_outcome self) as Hin.
  split; [ exact Hin | ].
  unfold click_outcomes in Hin.
  repeat (apply elem_of_cons in Hin as [-> | Hin]);
    [ .. | by apply elem_of_nil in Hin ];
    (split; [ by repeat constructor | ]);
    intros e He; try discriminate He.
  by injection He as <-.
Qed.

Lemma CurrentWeatherPage_update_no_IndexError (h : Host) (ws : WeatherStation)
    (base_path : string) :
  result (CurrentWeatherPage_update h ws base_path) ≠ inl Py.IndexError.
Proof.
  unfold CurrentWeatherPage_update, round_of, Image_open.
  destruct (weather_hour ws), (outside_temp ws), (icon ws) as [code|];
    cbn [present mbind Stmt_bind stmt_bind mret Stmt_ret stmt_ret];
    try destruct (file_exists h _); destruct (inside_temp ws);
    discriminate.
Qed.

Lemma MinMaxHoursPage_update_no_IndexError (h : Host) (ws : WeatherStation) :
  result (MinMaxHoursPage_update h ws) ≠ inl Py.IndexError.
Proof.
  unfold MinMaxHoursPage_update.
  destruct (coldest ws), (hottest ws); discriminate.
Qed.

Lemma MinMaxTemperaturePage_update_main_no_IndexError (ws : WeatherStation) :
  result (MinMaxTemperaturePage_update_main ws) ≠ inl Py.IndexError.
Proof.
  unfold MinMaxTemperaturePage_update_main.
  destruct (coldest ws), (hottest ws); discriminate.
Qed.

Lemma SettingsPage_update_main_no_IndexError (h : Host) (base_path : string) :
  result (SettingsPage_update_main h base_path) ≠ inl Py.IndexError.
Proof.
  unfold SettingsPage_update_main, Image_open.
  destruct (file_exists h _); discriminate.
Qed.

Lemma built_page_never_fails (origin self : Page) :
  constructed origin → built_as origin self → valid_index self →
  result (click self).2 = inr ()
  ∧ ∀ h ws, result (update h ws self).2 ≠ inl Py.IndexError.
Proof.
  intros Hc [Hcls Hps] Hv.
  destruct self as [c ps cur]; simpl in Hcls, Hps; subst c ps.
  unfold valid_index in Hv; simpl in Hv.
  destruct Hc; destruct cur as [i|]; simpl in Hv;
    try (assert (i = 0) as -> by lia);
    try (assert (i = 0 ∨ i = 1 ∨ i = 2) as [-> | [-> | ->]] by lia);
    (split; [ reflexivity | intros h ws; cbn [update Page_init new_CurrentWeatherPage
      new_MinMaxTemperaturePage new_MinMaxHoursPage new_SettingsPage
      new_ShutdownPage new_RebootPage new_BackPage pages_append page_class pages snd] ]);
    first
      [ apply CurrentWeatherPage_update_no_IndexError
      | apply MinMaxHoursPage_update_no_IndexError
      | apply MinMaxTemperaturePage_update_main_no_IndexError
      | apply SettingsPage_update_main_no_IndexError
      | discriminate
      | exact (MinMaxHoursPage_update_no_IndexError h ws) ].
Qed.

(** X9: navigation that starts from a constructed page never fails. After
    any sequence of updates and clicks the next [click()] returns normally,
    and the next [update()] never raises [IndexError]: what an update can
    still raise comes from missing data or a missing image file. *)
Theorem navigation_never_fails (origin : Page) (ops : list Op) :
  constructed origin →
  result (click (run ops origin)).2 = inr ()
  ∧ ∀ h ws, result (update h ws (run ops origin)).2 ≠ inl Py.IndexError.
Proof.
  intros Hc.
  destruct (run_preserves origin ops Hc origin) as [Hb Hv];
    [ by split | by apply constructed_valid | ].
  by apply (built_page_never_fails origin).
Qed.

(** Three clicks and an update on a fresh min/max page, then one more of
    each. *)
Lemma navigation_never_fails_witness :
  let ops := [op_click; op_click; op_update bare_host coldest_only_station; op_click] in
  result (click (run ops new_MinMaxTemperaturePage)).2 = inr ()
  ∧ result (update bare_host coldest_only_station (run ops new_MinMaxTemperaturePage)).2
    ≠ inl Py.IndexError.
Proof.
  intros ops.
  destruct (navigation_never_fails new_MinMaxTemperaturePage ops
              constructed_MinMaxTemperaturePage) as [Hclick Hupdate].
  split; [ exact Hclick | apply Hupdate ].
Defined.

(** ** Further properties: the current weather page *)

(** X10: when [CurrentWeatherPage.update()] succeeds and how it fails. It
    returns normally exactly when there is no outside data, or the outside
    temperature and the icon code are there and the icon file can be
    opened. With outside data flagged but the temperature or the icon code
    absent it raises [TypeError], with the icon file missing it raises
    [FileNotFoundError]; in both cases nothing is displayed, the inside
    temperature included. *)
Theorem CurrentWeatherPage_update_fails (h : Host) (ws : WeatherStation)
    (base_path : string) (subpages : list Page) (cur : option Z) :
  let out := (update h ws (mkPage (CurrentWeatherPage base_path) subpages cur)).2 in
  (result out = inr ()
   ↔ weather_hour ws = None
     ∨ ∃ t code, outside_temp ws = Some t ∧ icon ws = Some code
                 ∧ file_exists h (icon_file base_path code) = true)
  ∧ (is_Some (weather_hour ws) → outside_temp ws = None ∨ icon ws = None →
     out = ([], inl Py.TypeError))
  ∧ (∀ t code, is_Some (weather_hour ws) →
       outside_temp ws = Some t → icon ws = Some code →
       file_exists h (icon_file base_path code) = false →
       out = ([], inl Py.FileNotFoundError)).
Proof.
  intros out. unfold out; cbn [update snd].
  unfold CurrentWeatherPage_update, round_of, Image_open.
  fold (icon_file base_path).
  destruct (weather_hour ws) as [wh|], (outside_temp ws) as [t|],
    (icon ws) as [code|];
    cbn [present mbind Stmt_bind stmt_bind mret Stmt_ret stmt_ret];
    try fold (icon_file base_path code);
    try destruct (file_exists h (icon_file base_path code)) eqn:Hfile;
    destruct (inside_temp ws); cbn [result snd];
    (split; [ split; [ intros Hok | intros [Hno | (t' & code' & Ht & Hc & Hf)] ]
            | split; [ intros [wh' Hwh] [Ho | Hi]
                     | intros t' code' [wh' Hwh] Ht Hc Hf ] ]);
    simplify_eq; eauto 10; congruence.
Qed.

(** Outside data flagged on a host without icon files: the update raises
    and shows nothing, although the inside temperature is known. *)
Lemma CurrentWeatherPage_update_fails_witness :
  let ws := {| weather_hour := Some 14; outside_temp := Some (216 # 10);
               inside_temp := Some (194 # 10); icon := Some "10d";
               coldest := None; hottest := None |} in
  (update bare_host ws (new_CurrentWeatherPage "/home/pi")).2
  = ([], inl Py.FileNotFoundError)
  ∧ (update bare_host (set_icon None ws) (new_CurrentWeatherPage "/home/pi")).2
    = ([], inl Py.TypeError).
Proof.
  intros ws. split.
  - destruct (CurrentWeatherPage_update_fails bare_host ws "/home/pi" [] None)
      as (_ & _ & Hfile).
    exact (Hfile (216 # 10)%Q "10d" (ex_intro _ 14 eq_refl) eq_refl eq_refl eq_refl).
  - destruct (CurrentWeatherPage_update_fails bare_host (set_icon None ws) "/home/pi" [] None)
      as (_ & Htype & _).
    exact (Htype (ex_intro _ 14 eq_refl) (or_intror eq_refl)).
Defined.

(** X11: the icon shown depends on the first two characters of the icon
    code only: two codes with the same first two characters, such as the
    day and the night variant of a condition, give the same update. *)
Theorem icon_codes_with_same_prefix (h : Host) (ws : WeatherStation)
    (self : Page) (code code' : string) :
  Py.prefix 2 code = Py.prefix 2 code' →
  update h (set_icon (Some code) ws) self = update h (set_icon (Some code') ws) self.
Proof.
  intros Hprefix.
  induction self as [c ps cur IH] using Page_tree_ind.
  assert (Hsub : update h (set_icon (Some code) ws) <$> ps
                 = update h (set_icon (Some code') ws) <$> ps).
  { apply list_eq; intros k. rewrite !list_lookup_fmap.
    destruct (ps !! k) as [sub|] eqn:Hk; simpl; [ | reflexivity ].
    f_equal. exact (Forall_lookup_1 _ _ _ _ IH Hk). }
  destruct c, cur as [i|]; cbn [update]; rewrite ?Hsub; try reflexivity.
  all: unfold CurrentWeatherPage_update, round_of;
    cbn [set_icon weather_hour outside_temp inside_temp icon];
    destruct (weather_hour ws), (outside_temp ws); try reflexivity;
    cbn [present mbind Stmt_bind stmt_bind mret Stmt_ret stmt_ret];
    by rewrite Hprefix.
Qed.

(** Rain by day and rain by night share the bitmap icons/10.bmp. *)
Lemma icon_codes_with_same_prefix_witness :
  update utc_host (set_icon (Some "10d") forecast_station) (new_CurrentWeatherPage "/home/pi")
  = update utc_host (set_icon (Some "10n") forecast_station) (new_CurrentWeatherPage "/home/pi").
Proof.
  apply (icon_codes_with_same_prefix utc_host forecast_station
           (new_CurrentWeatherPage "/home/pi") "10d" "10n").
  reflexivity.
Defined.

(** ** Further properties: which data a page reads *)

(** X12: the current weather page reads the current conditions only and
    the min/max page, on its main page as on its hours subpage, the
    forecast only: two stations that agree on the one or the other are
    rendered alike. *)
Theorem pages_read_their_own_data (h : Host) (ws ws' : WeatherStation) :
  (same_conditions ws ws' →
   ∀ base_path subpages cur,
     update h ws (mkPage (CurrentWeatherPage base_path) subpages cur)
     = update h ws' (mkPage (CurrentWeatherPage base_path) subpages cur))
  ∧ (same_forecast ws ws' →
     ∀ cur,
       update h ws (set_current_page cur new_MinMaxTemperaturePage)
       = update h ws' (set_current_page cur new_MinMaxTemperaturePage)).
Proof.
  split.
  - intros (Hwh & Hout & Hin & Hicon) base_path subpages cur.
    cbn [update]. unfold CurrentWeatherPage_update.
    by rewrite Hwh, Hout, Hin, Hicon.
  - intros [Hcold Hhot] cur.
    assert (Hmain : MinMaxTemperaturePage_update_main ws
                    = MinMaxTemperaturePage_update_main ws').
    { unfold MinMaxTemperaturePage_update_main. by rewrite Hcold, Hhot. }
    assert (Hhours : MinMaxHoursPage_update h ws = MinMaxHoursPage_update h ws').
    { unfold MinMaxHoursPage_update. by rewrite Hcold, Hhot. }
    destruct cur as [i|];
      cbn [update set_current_page new_MinMaxTemperaturePage pages_append
             Page_init new_MinMaxHoursPage page_class pages app fmap list_fmap];
      by rewrite ?Hmain, ?Hhours.
Qed.

(** The station with a forecast and the station without agree on the
    current conditions, so the current weather page cannot tell them
    apart. *)
Lemma pages_read_their_own_data_witness :
  update utc_host forecast_station (new_CurrentWeatherPage "/home/pi")
  = update utc_host blank_station (new_CurrentWeatherPage "/home/pi")
  ∧ update utc_host coldest_only_station
      (set_current_page (Some 0) new_MinMaxTemperaturePage)
    = update utc_host (set_icon (Some "10d") coldest_only_station)
        (set_current_page (Some 0) new_MinMaxTemperaturePage).
Proof.
  split.
  - destruct (pages_read_their_own_data utc_host forecast_station blank_station)
      as [Hcond _].
    apply Hcond. by repeat split.
  - destruct (pages_read_their_own_data utc_host coldest_only_station
                (set_icon (Some "10d") coldest_only_station)) as [_ Hfore].
    apply Hfore. by split.
Defined.

(** ** Further properties: rounded temperatures *)

(** Rounding keeps the order of temperatures. *)
Lemma round_le (x y : Q) : (x <= y)%Q → Py.round x <= Py.round y.
Proof.
  intros Hxy.
  pose proof (Qfloor_resp_le x y Hxy) as Hf.
  unfold Py.round.
  destruct (Z.eq_dec (Qfloor x) (Qfloor y)) as [E | NE].
  - rewrite E.
    destruct (x - inject_Z (Qfloor y) ?= 1 # 2)%Q eqn:Cx,
             (y - inject_Z (Qfloor y) ?= 1 # 2)%Q eqn:Cy;
      repeat match goal with
             | H : (_ ?= _)%Q = Eq |- _ => apply Qeq_alt in H
             | H : (_ ?= _)%Q = Lt |- _ => apply Qlt_alt in H
             | H : (_ ?= _)%Q = Gt |- _ => apply Qgt_alt in H
             end;
      destruct (Z.even (Qfloor y)); try lia; exfalso; lra.
  - destruct (x - inject_Z (Qfloor x) ?= 1 # 2)%Q,
             (y - inject_Z (Qfloor y) ?= 1 # 2)%Q,
             (Z.even (Qfloor x)), (Z.even (Qfloor y)); lia.
Qed.

(** X13: when the forecast minimum is not above the forecast maximum, the
    number shown after "Min:" is not above the number shown after "Max:",
    whatever the rounding does to the two. *)
Theorem min_not_shown_above_max (h : Host) (ws : WeatherStation)
    (subpages : list Page) (cold hot : Weather) :
  coldest ws = Some cold → hottest ws = Some hot →
  (temp_min cold <= temp_max hot)%Q →
  ∃ lo hi : Z,
    (update h ws (mkPage MinMaxTemperaturePage subpages None)).2
    = ([screen_display_top_bottom ("Min:" +:+ Py.str lo) ("Max:" +:+ Py.str hi)],
       inr ())
    ∧ lo <= hi.
Proof.
  intros Hcold Hhot Hle.
  exists (Py.round (temp_min cold)), (Py.round (temp_max hot)).
  split; [ | by apply round_le ].
  cbn [update snd]. unfold MinMaxTemperaturePage_update_main.
  by rewrite Hcold, Hhot.
Qed.

(** 3.2 and 18.7 degrees are shown as 3 and 19. *)
Lemma min_not_shown_above_max_witness :
  ∃ lo hi : Z,
    (update utc_host forecast_station new_MinMaxTemperaturePage).2
    = ([screen_display_top_bottom ("Min:" +:+ Py.str lo) ("Max:" +:+ Py.str hi)],
       inr ())
    ∧ lo <= hi.
Proof.
  apply (min_not_shown_above_max utc_host forecast_station
           (pages new_MinMaxTemperaturePage)
           {| temp_min := 32 # 10; temp_max := 45 # 10; reference_time := 22500 |}
           {| temp_min := 171 # 10; temp_max := 187 # 10; reference_time := 56520 |}).
  - reflexivity.
  - reflexivity.
  - unfold Qle; simpl; lia.
Defined.

(** X14: a temperature from -0.5 to 0.5 degrees, both ends included, is
    shown as "0": never as "-0", and the two ties go to zero rather than
    to -1 or 1. *)
Theorem temperature_near_zero_shows_0 (h : Host) (ws : WeatherStation)
    (base_path : string) (subpages : list Page) (cur : option Z) (t : Q) :
  weather_hour ws = None → inside_temp ws = Some t →
  (- (1 # 2) <= t)%Q → (t <= 1 # 2)%Q →
  let self := mkPage (CurrentWeatherPage base_path) subpages cur in
  update h ws self
  = (self, ([screen_display None (Some "0") None; print "Screen updated."], inr ())).
Proof.
  intros Hno Hin Hlo Hhi self.
  assert (Hround : Py.round t = 0).
  { pose proof (round_le _ _ Hlo) as H1. pose proof (round_le _ _ Hhi) as H2.
    change (Py.round (- (1 # 2))) with 0 in H1.
    change (Py.round (1 # 2)) with 0 in H2. lia. }
  unfold self; cbn [update]. unfold CurrentWeatherPage_update.
  by rewrite Hno, Hin, Hround.
Qed.

(** Half a degree below zero inside, no outside data. *)
Lemma temperature_near_zero_shows_0_witness :
  let ws := {| weather_hour := None; outside_temp := None;
               inside_temp := Some (- (1 # 2))%Q; icon := None;
               coldest := None; hottest := None |} in
  update utc_host ws (new_CurrentWeatherPage "/home/pi")
  = (new_CurrentWeatherPage "/home/pi",
     ([screen_display None (Some "0") None; print "Screen updated."], inr ())).
Proof.
  intros ws.
  apply (temperature_near_zero_shows_0 utc_host ws "/home/pi" [] None (- (1 # 2))%Q).
  - reflexivity.
  - reflexivity.
  - unfold Qle; simpl; lia.
  - unfold Qle; simpl; lia.
Defined.
